(** * ffplayout: the clip scheduler of [ffplayout.py]

    A shallow embedding of the scheduling core of [ffplayout.py]: the global
    helpers [get_date], [gen_dummy], [seek_in_cut_end], [src_or_dummy],
    [check_sync], [gen_input], [check_last_item], the class [GetSourceIter]
    with [get_playlist], [error_handling] and one pass of the [while True]
    loop of [next], and the validator [check_json] with
    [check_start_and_length].

    Conventions of the model.
    - Numbers.  Python floats are read as exact numbers.  Every quantity that
      the program holds as a number of seconds is a [Z] counting microseconds
      (the resolution of [get_time('full_sec')]); [sec n] is [n] seconds.
      Float rounding is outside this model.  [check_sync], whose one effect
      hangs on two strict comparisons of floats, is also given in the binary64
      arithmetic of the program itself ([check_sync_float]).
    - Outside world.  What a call observes of the clock, the file system and
      [ffprobe] is a record [Env], fixed for the duration of one call (one
      pass of the loop of [next]): all reads of the clock in one pass return
      the same instant.  Dates are day numbers ([date.toordinal()]).
    - Exceptions.  A Python exception that the code does not catch is the
      result [Raise]; notifications ([mail_or_log]) are collected in a log.
      [logger.info] lines are left out, and so is the start of the daemon
      thread of [validate_thread] by [get_playlist]: the validator only
      notifies, and is modelled as the function that the thread runs. *)

From Stdlib Require Import ZArith List String Bool Lia.
From Stdlib Require Import PrimFloat.
From Stdlib Require Uint63.
Import ListNotations.
Local Open Scope string_scope.
Local Open Scope list_scope.
Local Open Scope Z_scope.

(* ------------------------------------------------------------------ *)
(** ** Numbers and dates *)

Definition sec (n : Z) : Z := n * 1000000.

(** [date.toordinal()] of the proleptic Gregorian date [y-m-d]; the program
    holds dates as ['%Y-%m-%d'] strings, the model as this day number. *)
Definition is_leap (y : Z) : bool :=
  (y mod 4 =? 0) && (negb (y mod 100 =? 0) || (y mod 400 =? 0)).

Definition days_before_month (y m : Z) : Z :=
  nth (Z.to_nat (m - 1)) [0; 31; 59; 90; 120; 151; 181; 212; 243; 273; 304; 334] 0
  + (if (2 <? m) && is_leap y then 1 else 0).

Definition toordinal (y m d : Z) : Z :=
  let p := y - 1 in
  p * 365 + p / 4 - p / 100 + p / 400 + days_before_month y m + d.

(* ------------------------------------------------------------------ *)
(** ** Python string helpers *)

(** [s.replace(old, new)]: every non-overlapping occurrence, left to right. *)
Fixpoint replace_from (old new s : string) (skip : nat) : string :=
  match s with
  | EmptyString => EmptyString
  | String c s' =>
      match skip with
      | S k => replace_from old new s' k
      | O =>
          if String.prefix old s
          then String.append new (replace_from old new s' (String.length old - 1))
          else String c (replace_from old new s' 0)
      end
  end.

Fixpoint replace_empty (new s : string) : string :=
  match s with
  | EmptyString => new
  | String c s' => String.append new (String c (replace_empty new s'))
  end.

Definition replace (old new s : string) : string :=
  match old with
  | EmptyString => replace_empty new s
  | _ => replace_from old new s 0
  end.

(** [s.split(sep)[0]] *)
Definition split_head (sep s : string) : string :=
  match String.index 0 sep s with
  | Some n => String.substring 0 n s
  | None => s
  end.

(** [sub in s] on strings *)
Definition contains (sub s : string) : bool :=
  match String.index 0 sub s with
  | Some _ => true
  | None => false
  end.

(** truth value of a string *)
Definition nonempty (s : string) : bool :=
  match s with
  | EmptyString => false
  | _ => true
  end.

(* ------------------------------------------------------------------ *)
(** ** Configuration: the namespaces [_pre_comp], [_playlist], [_buffer] *)

Record Config := {
  pre_comp_w : Z;
  pre_comp_h : Z;
  pre_comp_protocols : string;          (* cfg.get: a string, tested with [in] *)
  pre_comp_copy : bool;
  playlist_start : Z;                   (* day_start, an hour *)
  playlist_filler : string;
  playlist_blackclip : string;
  playlist_shift : Z;                   (* time_shift: whole seconds *)
  playlist_map_ext : option (string * string);
                                        (* [None]: the empty string *)
  buffer_length : Z;                    (* getint: whole seconds *)
  buffer_tol : Z                        (* getfloat: microseconds *)
}.

(* ------------------------------------------------------------------ *)
(** ** Playlists as [json.load] returns them *)

(** The value of ["in"], ["out"] or ["duration"]: a JSON number, or a string
    that [float()] rejects (the case [is_float] guards). *)
Inductive jnum :=
| JNum (x : Z)
| JBad.

Record ClipNode := {
  source : string;
  node_in : jnum;
  node_out : jnum;
  duration : jnum
}.

(** The value of ["begin"]: three [':']-separated parts that [float()]
    accepts, three parts of which one is rejected, or a string that does not
    split in three parts. *)
Inductive hms :=
| Hms (h m s : Z)
| HmsNotFloat
| HmsBadShape.

Record Playlist := {
  pl_begin : option hms;                (* [None]: no key "begin" *)
  pl_has_length : bool;                 (* "length" in clip_nodes *)
  pl_program : option (list ClipNode)   (* [None]: no key "program" *)
}.

Definition jnum_eqb (a b : jnum) : bool :=
  match a, b with
  | JNum x, JNum y => x =? y
  | JBad, JBad => true
  | _, _ => false
  end.

(** [node == other] on the dicts of two nodes.  The strings that [JBad]
    stands for are taken to be equal. *)
Definition node_eqb (a b : ClipNode) : bool :=
  String.eqb (source a) (source b)
  && jnum_eqb (node_in a) (node_in b)
  && jnum_eqb (node_out a) (node_out b)
  && jnum_eqb (duration a) (duration b).

(* ------------------------------------------------------------------ *)
(** ** The outside world *)

(** What [check_output(['ffprobe', ...])] gives for a live source. *)
Inductive probe_out :=
| Probe404          (* the output contains '404' *)
| ProbeFloat        (* bytes that float() accepts *)
| ProbeOther        (* anything else *)
| ProbeFailed.      (* ffprobe exits non-zero: CalledProcessError *)

(** The playlist file of a day. [content = None]: [json.load] raises. *)
Inductive file :=
| Missing
| File (mtime : Z) (content : option Playlist).

Record Env := {
  wall_time : Z;                (* datetime.today(): time since midnight *)
  wall_date : Z;                (* date.today(), as its ordinal *)
  path_exists : string -> bool; (* os.path.exists on a clip *)
  probe : string -> probe_out;
  playlist_file : Z -> file     (* the json file of a day *)
}.

(** [get_time('full_sec')]: the time of day of
    [datetime.today() + timedelta(seconds=_playlist.shift)] *)
Definition full_sec (cfg : Config) (env : Env) : Z :=
  (wall_time env + sec (playlist_shift cfg)) mod sec 86400.

(** [get_time('hour')] *)
Definition hour (cfg : Config) (env : Env) : Z := full_sec cfg env / sec 3600.

(** [get_date(seek_day)].  A [date] plus a [timedelta] moves by the whole
    days of the [timedelta] only. *)
Definition get_date (cfg : Config) (env : Env) (seek_day : bool) : Z :=
  let d := wall_date env + sec (playlist_shift cfg) / sec 86400 in
  if (hour cfg env <? playlist_start cfg) && seek_day
  then d - 1
  else d.

(** [if 0 <= t < _playlist.start * 3600: t += 86400]: a time of day moved
    into the frame of the broadcast day.  [gen_input], [check_last_item] and
    [error_handling] each write this test out. *)
Definition into_frame (cfg : Config) (t : Z) : Z :=
  if (0 <=? t) && (t <? sec (playlist_start cfg * 3600))
  then t + sec 86400
  else t.

Definition check_file_exist (env : Env) (in_file : string) : bool :=
  if path_exists env in_file then true else false.

(* ------------------------------------------------------------------ *)
(** ** Render commands: argument vectors for ffmpeg *)

Inductive arg :=
| Lit (s : string)          (* a string literal or a path *)
| Num (x : Z)               (* str(x) *)
| Color (w h d : Z)         (* 'color=s={}x{}:d={}'.format(w, h, d) *)
| Fade (length : Z).        (* fade_out_vid + fade_out_aud, st=length *)

Definition cmd := list arg.

(** ['lavfi' in src_cmd]: only a string element can equal 'lavfi'. *)
Definition is_lavfi (a : arg) : bool :=
  match a with
  | Lit s => String.eqb s "lavfi"
  | _ => false
  end.

Definition has_lavfi (c : cmd) : bool := existsb is_lavfi c.

(* ------------------------------------------------------------------ *)
(** ** Results: uncaught exceptions and the notification log *)

Inductive exn :=
| TypeError
| KeyError
| ValueError
| JSONDecodeError
| CalledProcessError.

Inductive detail :=
| DStr (s : string)
| DJson (f : option Z)              (* self.json_file, by its day *)
| DNum (x : Z) (suffix : string).   (* str(x) + suffix *)

Record notice := {
  n_message : string;
  n_detail : detail
}.

Inductive res (A : Type) :=
| Ok (a : A) (log : list notice)
| Raise (e : exn) (log : list notice).

Arguments Ok {A} a log.
Arguments Raise {A} e log.

Definition ret {A} (a : A) : res A := Ok a [].

Definition bind {A B} (m : res A) (f : A -> res B) : res B :=
  match m with
  | Ok a l =>
      match f a with
      | Ok b l' => Ok b (l ++ l')
      | Raise e l' => Raise e (l ++ l')
      end
  | Raise e l => Raise e l
  end.

Notation "x <- m ;; k" := (bind m (fun x => k))
  (at level 61, m at next level, right associativity).
Notation "m ;;; k" := (bind m (fun _ => k))
  (at level 61, right associativity).

(** [mail_or_log(message, get_time(None), path)]: the notifier is an
    external collaborator; the model records what it is given. *)
Definition mail_or_log (message : string) (path : detail) : res unit :=
  Ok tt [{| n_message := message; n_detail := path |}].

(* ------------------------------------------------------------------ *)
(** ** Global helper functions *)

(** [gen_dummy(duration)] *)
Definition gen_dummy (cfg : Config) (duration : Z) : cmd :=
  if pre_comp_copy cfg
  then [Lit "-i"; Lit (playlist_blackclip cfg)]
  else [Lit "-f"; Lit "lavfi"; Lit "-i";
        Color (pre_comp_w cfg) (pre_comp_h cfg) duration;
        Lit "-f"; Lit "lavfi"; Lit "-i"; Lit "anullsrc=r=48000";
        Lit "-shortest"].

(** [seek_in_cut_end(in_file, duration, seek, out)] *)
Definition seek_in_cut_end (cfg : Config) (in_file : string)
    (duration seek out : Z) : cmd :=
  let inpoint := if 0 <? seek then [Lit "-ss"; Num seek] else [] in
  let length := out - seek - sec 1 in
  let cut_end := if out <? duration then [Lit "-t"; Num (out - seek)] else [] in
  let fades := if out <? duration then Fade length else Lit "[0:a]apad[a]" in
  let end_ :=
    if out <? duration
    then [Lit "-map"; Lit "[v]"; Lit "-map"; Lit "[a]"]
    else [Lit "-shortest"; Lit "-map"; Lit "0:v"; Lit "-map"; Lit "[a]"] in
  if pre_comp_copy cfg
  then inpoint ++ [Lit "-i"; Lit in_file] ++ cut_end
  else inpoint ++ [Lit "-i"; Lit in_file] ++ cut_end
         ++ [Lit "-filter_complex"; fades] ++ end_.

(** The last branch of [src_or_dummy], which its live branch repeats for a
    probe that answers 404: notify, then [gen_dummy(dummy_len)] when
    [dummy_len and not _pre_comp.copy], else [gen_dummy(out - seek)]. *)
Definition clip_not_exist (cfg : Config) (src : string) (seek out : Z)
    (dummy_len : option Z) : res cmd :=
  mail_or_log "Clip not exist:" (DStr src) ;;;
  match dummy_len with
  | Some d =>
      if negb (d =? 0) && negb (pre_comp_copy cfg)
      then ret (gen_dummy cfg d)
      else ret (gen_dummy cfg (out - seek))
  | None => ret (gen_dummy cfg (out - seek))
  end.

(** [prefix and prefix in _pre_comp.protocols], with
    [prefix = src.split('://')[0]]: the test for a live source *)
Definition live_source (cfg : Config) (src : string) : bool :=
  let prefix := split_head "://" src in
  nonempty prefix && contains prefix (pre_comp_protocols cfg).

(** [src_or_dummy(src, duration, seek, out, dummy_len=None)].
    In the live branch [live_duration] is the [bytes] that ffprobe printed:
    when [float()] accepts them, the test [out < live_duration] (or, after
    [seek > 0.0], the test [out < duration] in [seek_in_cut_end]) compares a
    number with [bytes] and raises [TypeError]. *)
Definition src_or_dummy (cfg : Config) (env : Env) (src : string)
    (duration seek out : Z) (dummy_len : option Z) : res cmd :=
  let add_filter :=
    if pre_comp_copy cfg
    then []
    else [Lit "-filter_complex"; Lit "[0:a]apad[a]";
          Lit "-shortest"; Lit "-map"; Lit "0:v"; Lit "-map"; Lit "[a]"] in
  if live_source cfg src then
    match probe env src with
    | ProbeFailed => Raise CalledProcessError []
    | Probe404 => clip_not_exist cfg src seek out dummy_len
    | ProbeFloat => Raise TypeError []
    | ProbeOther => ret (seek_in_cut_end cfg src (sec 86400) 0 (out - seek))
    end
  else if check_file_exist env src then
    if (0 <? seek) || (out <? duration)
    then ret (seek_in_cut_end cfg src duration seek out)
    else ret ([Lit "-i"; Lit src] ++ add_filter)
  else clip_not_exist cfg src seek out dummy_len.

(** [t_dist] of [check_sync(begin)] *)
Definition t_dist (cfg : Config) (env : Env) (begin : Z) : Z :=
  let time_now := full_sec cfg env in
  let start := sec (playlist_start cfg * 3600) in
  let t_dist := begin - time_now in
  if (0 <=? time_now) && (time_now <? start) && negb (begin =? start)
  then t_dist - sec 86400
  else t_dist.

(** [check_sync(begin)], on exact numbers; [check_sync_float] below is the
    same function on the floats of the program. *)
Definition check_sync (cfg : Config) (env : Env) (begin : Z) : res unit :=
  let tolerance := if pre_comp_copy cfg then sec 60 else buffer_tol cfg * 4 in
  let t_dist := t_dist cfg env begin in
  if negb ((sec (buffer_length cfg) - tolerance <? t_dist)
           && (t_dist <? sec (buffer_length cfg) + tolerance))
  then mail_or_log "Playlist is not sync!" (DNum t_dist " seconds async")
  else ret tt.

(** *** [check_sync] in the floats of the program

    Python's [float] is IEEE 754 binary64 with round to nearest even, and so
    is [PrimFloat.float]: every [+], [-], [*], [/] and comparison below is
    the operation that the interpreter performs. *)

(** [float(n)] for an [int]; exact for [|n| <= 2^53], and the correctly
    rounded value that Python gives up to [2^63]. *)
Definition float_of_int (n : Z) : float :=
  if n <? 0
  then PrimFloat.opp (PrimFloat.of_uint63 (Uint63.of_Z (- n)))
  else PrimFloat.of_uint63 (Uint63.of_Z n).

(** [get_time('full_sec')] for the time [h:m:s] and [us] microseconds of
    [datetime.today() + timedelta(seconds=_playlist.shift)]:
    [float(h * 3600 + m * 60 + s) + float(us) / 1000000] *)
Definition full_sec_float (h m s us : Z) : float :=
  (float_of_int (h * 3600 + m * 60 + s) + float_of_int us / 1000000)%float.

(** [t_dist] of [check_sync(begin)], for [time_now = get_time('full_sec')] *)
Definition t_dist_float (cfg : Config) (time_now begin : float) : float :=
  let start := float_of_int (playlist_start cfg * 3600) in
  let t_dist := (begin - time_now)%float in
  if (0 <=? time_now)%float && (time_now <? start)%float
     && negb (begin =? start)%float
  then (t_dist - 86400)%float
  else t_dist.

(** [_buffer.length - tolerance] and [_buffer.length + tolerance] of
    [check_sync]; [tol] is the float [_buffer.tol].  In copy mode
    [tolerance] is the [int] 60 and both are [int]s, which Python compares
    with a float by value. *)
Definition sync_interval (cfg : Config) (tol : float) : float * float :=
  if pre_comp_copy cfg
  then (float_of_int (buffer_length cfg - 60),
        float_of_int (buffer_length cfg + 60))
  else ((float_of_int (buffer_length cfg) - tol * 4)%float,
        (float_of_int (buffer_length cfg) + tol * 4)%float).

(** [check_sync(begin)]: [Some t_dist] when it calls [mail_or_log] with
    ['Playlist is not sync!'] and [str(t_dist) + ' seconds async'], [None]
    when it sends nothing.  It returns nothing and assigns nothing but its
    own locals. *)
Definition check_sync_float (cfg : Config) (tol time_now begin : float)
    : option float :=
  let t_dist := t_dist_float cfg time_now begin in
  let (low, high) := sync_interval cfg tol in
  if negb ((low <? t_dist)%float && (t_dist <? high)%float)
  then Some t_dist
  else None.

(** [time] of [gen_input]: [get_time('full_sec')], moved into the frame of
    the day *)
Definition frame_time (cfg : Config) (env : Env) : Z :=
  into_frame cfg (full_sec cfg env).

(** [gen_input(src, begin, dur, seek, out, last)].  The result is [None]
    when no branch of the [if] is taken and the function falls off its end;
    otherwise the pair [(src_cmd, time_left)]. *)
Definition gen_input (cfg : Config) (env : Env) (src : string)
    (begin dur seek out : Z) (last : bool)
    : res (option (option cmd * option Z)) :=
  let start := sec (playlist_start cfg * 3600) in
  let day_in_sec := sec 86400 in
  let ref_time := day_in_sec + start in
  let time := frame_time cfg env in
  let time_diff :=
    sec (buffer_length cfg) + buffer_tol cfg + out - seek + time in
  if ((time_diff <=? ref_time) || (begin <? day_in_sec)) && negb last then
    c <- src_or_dummy cfg env src dur seek out (Some (sec 20)) ;;
    ret (Some (Some c, None))
  else if (time_diff <? ref_time) && last then
    let time_diff := sec (buffer_length cfg) + buffer_tol cfg + dur + time in
    let new_len := dur - (time_diff - ref_time) in
    if ref_time <=? time_diff then
      src_cmd <- (if String.eqb src (playlist_filler cfg)
                  then src_or_dummy cfg env src dur (dur - new_len) dur None
                  else src_or_dummy cfg env src dur 0 new_len None) ;;
      ret (Some (Some src_cmd, Some (new_len - dur)))
    else
      src_cmd <- src_or_dummy cfg env src dur 0 dur None ;;
      mail_or_log "playlist is not long enough:"
                  (DNum new_len " seconds needed.") ;;;
      ret (Some (Some src_cmd, Some (new_len - dur)))
  else if ref_time <? time_diff then
    let new_len := out - seek - (time_diff - ref_time) in
    if sec 5 <? new_len then
      src_cmd <- (if String.eqb src (playlist_filler cfg)
                  then src_or_dummy cfg env src dur (out - new_len) out None
                  else src_or_dummy cfg env src dur seek new_len None) ;;
      ret (Some (Some src_cmd, Some 0))
    else if sec 1 <? new_len then
      ret (Some (Some (gen_dummy cfg new_len), Some 0))
    else
      ret (Some (None, Some 0))
  else ret None.

(** [check_last_item(src_cmd, last_time, last)].  With [src_cmd = None] and
    [last] true the second test evaluates ['lavfi' in None]: [TypeError]. *)
Definition check_last_item (cfg : Config) (env : Env) (src_cmd : option cmd)
    (last_time : option Z) (last : bool) : res (bool * option Z) :=
  match src_cmd with
  | None =>
      if negb last
      then ret (true, Some (into_frame cfg (full_sec cfg env)))
      else Raise TypeError []
  | Some c =>
      if has_lavfi c && negb last
      then ret (true, Some (into_frame cfg (full_sec cfg env
                                            + sec (buffer_length cfg)
                                            + buffer_tol cfg)))
      else ret (false, last_time)
  end.

(* ------------------------------------------------------------------ *)
(** ** class GetSourceIter *)

Record GetSourceIter := {
  last_time : option Z;
  last_mod_time : Z;
  json_file : option Z;
  clip_nodes : option Playlist;
  src_cmd : option cmd;
  first : bool;
  last : bool;
  list_date : Z;
  dummy_len : Z;
  begin : option Z;
  time_left : option Z
}.

Definition set_last_time v (self : GetSourceIter) :=
  {| last_time := v; last_mod_time := last_mod_time self;
     json_file := json_file self; clip_nodes := clip_nodes self;
     src_cmd := src_cmd self; first := first self; last := last self;
     list_date := list_date self; dummy_len := dummy_len self;
     begin := begin self; time_left := time_left self |}.

Definition set_last_mod_time v (self : GetSourceIter) :=
  {| last_time := last_time self; last_mod_time := v;
     json_file := json_file self; clip_nodes := clip_nodes self;
     src_cmd := src_cmd self; first := first self; last := last self;
     list_date := list_date self; dummy_len := dummy_len self;
     begin := begin self; time_left := time_left self |}.

Definition set_json_file v (self : GetSourceIter) :=
  {| last_time := last_time self; last_mod_time := last_mod_time self;
     json_file := v; clip_nodes := clip_nodes self;
     src_cmd := src_cmd self; first := first self; last := last self;
     list_date := list_date self; dummy_len := dummy_len self;
     begin := begin self; time_left := time_left self |}.

Definition set_clip_nodes v (self : GetSourceIter) :=
  {| last_time := last_time self; last_mod_time := last_mod_time self;
     json_file := json_file self; clip_nodes := v;
     src_cmd := src_cmd self; first := first self; last := last self;
     list_date := list_date self; dummy_len := dummy_len self;
     begin := begin self; time_left := time_left self |}.

Definition set_src_cmd v (self : GetSourceIter) :=
  {| last_time := last_time self; last_mod_time := last_mod_time self;
     json_file := json_file self; clip_nodes := clip_nodes self;
     src_cmd := v; first := first self; last := last self;
     list_date := list_date self; dummy_len := dummy_len self;
     begin := begin self; time_left := time_left self |}.

Definition set_first v (self : GetSourceIter) :=
  {| last_time := last_time self; last_mod_time := last_mod_time self;
     json_file := json_file self; clip_nodes := clip_nodes self;
     src_cmd := src_cmd self; first := v; last := last self;
     list_date := list_date self; dummy_len := dummy_len self;
     begin := begin self; time_left := time_left self |}.

Definition set_last v (self : GetSourceIter) :=
  {| last_time := last_time self; last_mod_time := last_mod_time self;
     json_file := json_file self; clip_nodes := clip_nodes self;
     src_cmd := src_cmd self; first := first self; last := v;
     list_date := list_date self; dummy_len := dummy_len self;
     begin := begin self; time_left := time_left self |}.

Definition set_list_date v (self : GetSourceIter) :=
  {| last_time := last_time self; last_mod_time := last_mod_time self;
     json_file := json_file self; clip_nodes := clip_nodes self;
     src_cmd := src_cmd self; first := first self; last := last self;
     list_date := v; dummy_len := dummy_len self;
     begin := begin self; time_left := time_left self |}.

Definition set_dummy_len v (self : GetSourceIter) :=
  {| last_time := last_time self; last_mod_time := last_mod_time self;
     json_file := json_file self; clip_nodes := clip_nodes self;
     src_cmd := src_cmd self; first := first self; last := last self;
     list_date := list_date self; dummy_len := v;
     begin := begin self; time_left := time_left self |}.

Definition set_begin v (self : GetSourceIter) :=
  {| last_time := last_time self; last_mod_time := last_mod_time self;
     json_file := json_file self; clip_nodes := clip_nodes self;
     src_cmd := src_cmd self; first := first self; last := last self;
     list_date := list_date self; dummy_len := dummy_len self;
     begin := v; time_left := time_left self |}.

Definition set_time_left v (self : GetSourceIter) :=
  {| last_time := last_time self; last_mod_time := last_mod_time self;
     json_file := json_file self; clip_nodes := clip_nodes self;
     src_cmd := src_cmd self; first := first self; last := last self;
     list_date := list_date self; dummy_len := dummy_len self;
     begin := begin self; time_left := v |}.

(** [GetSourceIter.__init__] *)
Definition init (cfg : Config) (env : Env) : GetSourceIter :=
  {| last_time := None;
     last_mod_time := 0;
     json_file := None;
     clip_nodes := None;
     src_cmd := None;
     first := true;
     last := false;
     list_date := get_date cfg env true;
     dummy_len := sec 60;
     begin := Some 0;
     time_left := None |}.

(** [GetSourceIter.error_handling(message)] *)
Definition error_handling (cfg : Config) (env : Env) (message : string)
    (self : GetSourceIter) : res GetSourceIter :=
  let self := set_src_cmd (Some (gen_dummy cfg (dummy_len self))) self in
  let self :=
    if last self then
      let self :=
        set_last_time (Some (sec (playlist_start cfg * 3600 - 5))) self in
      set_first false self
    else
      let t := full_sec cfg env + dummy_len self
               + sec (buffer_length cfg) + buffer_tol cfg in
      let self := set_last_time (Some (into_frame cfg t)) self in
      set_first true self in
  mail_or_log message (DJson (json_file self)) ;;;
  let self :=
    set_begin
      (Some (full_sec cfg env + sec (buffer_length cfg) + buffer_tol cfg))
      self in
  let self := set_last false self in
  let self := set_dummy_len (sec 60) self in
  let self := set_last_mod_time 0 self in
  ret self.

(** [GetSourceIter.get_playlist()].  The file of a day stands for its path
    [<path>/<year>/<month>/<list_date>.json]. *)
Definition get_playlist (cfg : Config) (env : Env) (self : GetSourceIter)
    : res GetSourceIter :=
  let self := set_json_file (Some (list_date self)) self in
  match playlist_file env (list_date self) with
  | File mod_time content =>
      self <- (if last_mod_time self <? mod_time
               then match content with
                    | Some nodes => ret (set_clip_nodes (Some nodes) self)
                    | None => Raise JSONDecodeError []
                    end
               else ret self) ;;
      ret (set_last_mod_time mod_time self)
  | Missing => error_handling cfg env "Playlist not exist:" self
  end.

(** [node["source"]], with [_ext[0]] replaced by [_ext[1]] when
    [_playlist.map_ext] is set *)
Definition mapped_source (cfg : Config) (node : ClipNode) : string :=
  match playlist_map_ext cfg with
  | Some (e0, e1) => replace e0 e1 (source node)
  | None => source node
  end.

(** [v if is_float(v) else default] *)
Definition float_or (v : jnum) (default : Z) : Z :=
  match v with
  | JNum x => x
  | JBad => default
  end.

(** What one pass of the [while True] loop of [next] gives its consumer. *)
Inductive step :=
| Yield (c : option cmd)    (* yield self.src_cmd *)
| Again                     (* the pass ends without a yield *)
| Stop.                     (* return: the generator is exhausted *)

(** The [for] loop of [next] over [self.clip_nodes["program"]], from the
    nodes [nodes] on; [true] when it is left by [break].  [gen_input]
    returning [None] makes the tuple assignment raise [TypeError]; so does
    any arithmetic or comparison on a [begin] or [last_time] that is
    [None]. *)
Fixpoint walk (cfg : Config) (env : Env) (program nodes : list ClipNode)
    (self : GetSourceIter) : res (GetSourceIter * bool) :=
  match nodes with
  | [] => ret (self, false)
  | node :: rest =>
      let src := mapped_source cfg node in
      let seek := float_or (node_in node) 0 in
      let out := float_or (node_out node) (dummy_len self) in
      let duration := float_or (duration node) (dummy_len self) in
      match begin self with
      | None => Raise TypeError []
      | Some b =>
          let normal :=
            if match last_time self with
               | Some lt => negb (lt =? 0) && (lt <? b)
               | None => false
               end
            then
              let last := node_eqb node (List.last program node) in
              check_sync cfg env b ;;;
              r <- gen_input cfg env src b duration seek out last ;;
              match r with
              | None => Raise TypeError []
              | Some (c, tl) =>
                  let self := set_src_cmd c self in
                  let self := set_time_left tl self in
                  match tl with
                  | None =>
                      (* normal behavior *)
                      ret (set_last_time (Some b) self, true)
                  | Some t =>
                      if 0 <? t then
                        (* when playlist is finish and we have time left *)
                        let self :=
                          set_list_date (get_date cfg env false) self in
                        let self := set_last_time (Some b) self in
                        let self := set_dummy_len t self in
                        ret (self, true)
                      else
                        (* when there is no time left and we are in time *)
                        let self :=
                          set_list_date (get_date cfg env false) self in
                        let self :=
                          set_last_time
                            (Some (sec (playlist_start cfg * 3600 - 5))) self in
                        let self := set_last_mod_time 0 self in
                        ret (self, true)
                  end
              end
            else
              walk cfg env program rest
                   (set_begin (Some (b + (out - seek))) self) in
          match first self, last_time self with
          | true, None => Raise TypeError []
          | true, Some lt =>
              if lt <? b + duration then
                (* first time we end up here: calculate seek time *)
                let seek := lt - b + seek in
                r <- gen_input cfg env src b duration seek out false ;;
                match r with
                | None => Raise TypeError []
                | Some (c, tl) =>
                    let self := set_src_cmd c self in
                    let self := set_time_left tl self in
                    let self := set_first false self in
                    let self := set_last_time (Some b) self in
                    ret (self, true)
                end
              else normal
          | false, _ => normal
          end
      end
  end.

(** [if self.src_cmd is not None: yield self.src_cmd] *)
Definition yield_src_cmd (self : GetSourceIter) : GetSourceIter * step :=
  match src_cmd self with
  | Some c => (self, Yield (Some c))
  | None => (self, Again)
  end.

(** One pass of the [while True] loop of [GetSourceIter.next]. *)
Definition next_pass (cfg : Config) (env : Env) (self : GetSourceIter)
    : res (GetSourceIter * step) :=
  self <- get_playlist cfg env self ;;
  match clip_nodes self with
  | None => ret (self, Yield (src_cmd self))
  | Some nodes =>
      fl <- check_last_item cfg env (src_cmd self) (last_time self)
                            (last self) ;;
      let self := set_first (fst fl) self in
      let self := set_last_time (snd fl) self in
      self <- match pl_begin nodes with
              | Some (Hms h m s) =>
                  ret (set_begin (Some (h * 3600 + m * 60 + s)) self)
              | Some HmsNotFloat => ret (set_begin (last_time self) self)
              | Some HmsBadShape => Raise ValueError []
              | None =>
                  (* start from current time *)
                  ret (set_begin (Some (full_sec cfg env)) self)
              end ;;
      match pl_program nodes with
      | None => Raise KeyError []
      | Some program =>
          w <- walk cfg env program program self ;;
          let (self, broke) := w in
          if broke then ret (yield_src_cmd self)
          else
            reach_end <-
              match pl_begin nodes with
              | None => ret true
              | Some _ =>
                  if negb (pl_has_length nodes)
                  then match begin self with
                       | Some b => ret (b <? full_sec cfg env)
                       | None => Raise TypeError []
                       end
                  else ret false
              end ;;
            if reach_end then ret (self, Stop)
            else
              self <- error_handling cfg env "Playlist is not valid!" self ;;
              ret (yield_src_cmd self)
      end
  end.

(** The generator [next] run against the successive observations [envs] of
    the outside world, one per pass: the commands it yields, and whether it
    returned. *)
Fixpoint next (cfg : Config) (envs : list Env) (self : GetSourceIter)
    : res (list (option cmd) * bool * GetSourceIter) :=
  match envs with
  | [] => ret ([], false, self)
  | env :: rest =>
      r <- next_pass cfg env self ;;
      match r with
      | (self, Yield c) =>
          r' <- next cfg rest self ;;
          let '(cs, stopped, self') := r' in
          ret (c :: cs, stopped, self')
      | (self, Again) => next cfg rest self
      | (self, Stop) => ret ([], true, self)
      end
  end.

(* ------------------------------------------------------------------ *)
(** ** Vocabulary of the statements *)

(** [ref_time] of [gen_input] *)
Definition ref_time (cfg : Config) : Z :=
  sec 86400 + sec (playlist_start cfg * 3600).

(** [time_diff] of [gen_input] for a clip of playable length [span]:
    [_buffer.length + _buffer.tol + span + time] *)
Definition time_diff (cfg : Config) (env : Env) (span : Z) : Z :=
  sec (buffer_length cfg) + buffer_tol cfg + span + frame_time cfg env.

(** The first row of [gen_input]: its first [if] is taken. *)
Definition first_row (cfg : Config) (env : Env) (begin seek out : Z)
    (last : bool) : Prop :=
  (time_diff cfg env (out - seek) <= ref_time cfg \/ begin < sec 86400)
  /\ last = false.

(** The value of [self.begin] after the [for] loop of [next] has passed the
    nodes [pre] without a [break], starting from [b]. *)
Fixpoint playhead (dummy_len b : Z) (pre : list ClipNode) : Z :=
  match pre with
  | [] => b
  | node :: rest =>
      playhead dummy_len
        (b + (float_or (node_out node) dummy_len - float_or (node_in node) 0))
        rest
  end.

(** With [first] set and [last_time = lt], neither test of the loop body
    holds at any node of [pre]. *)
Fixpoint skipped (dummy_len lt b : Z) (pre : list ClipNode) : Prop :=
  match pre with
  | [] => True
  | node :: rest =>
      b + float_or (duration node) dummy_len <= lt
      /\ (lt = 0 \/ b <= lt)
      /\ skipped dummy_len lt
           (b + (float_or (node_out node) dummy_len
                 - float_or (node_in node) 0))
           rest
  end.

(** The notifications, as [mail_or_log] is given them. *)
Definition not_sync (cfg : Config) (env : Env) (begin : Z) : notice :=
  {| n_message := "Playlist is not sync!";
     n_detail := DNum (t_dist cfg env begin) " seconds async" |}.

Definition not_long_enough (new_len : Z) : notice :=
  {| n_message := "playlist is not long enough:";
     n_detail := DNum new_len " seconds needed." |}.

Definition clip_missing (src : string) : notice :=
  {| n_message := "Clip not exist:"; n_detail := DStr src |}.

Definition playlist_not_exist (self : GetSourceIter) : notice :=
  {| n_message := "Playlist not exist:";
     n_detail := DJson (Some (list_date self)) |}.

Definition playlist_not_valid (self : GetSourceIter) : notice :=
  {| n_message := "Playlist is not valid!";
     n_detail := DJson (Some (list_date self)) |}.

(* ------------------------------------------------------------------ *)
(** ** Scenarios: concrete configurations, worlds and playlists *)

(** A configuration in compress mode: day start 06:00, 5 s of buffer,
    half a second of tolerance. *)
Definition cfg0 : Config :=
  {| pre_comp_w := 1024;
     pre_comp_h := 576;
     pre_comp_protocols := "['http', 'https', 'rtmp']";
     pre_comp_copy := false;
     playlist_start := 6;
     playlist_filler := "/media/filler.mp4";
     playlist_blackclip := "/media/black.mp4";
     playlist_shift := 0;
     playlist_map_ext := None;
     buffer_length := 5;
     buffer_tol := 500000 |}.

(** A world at [t] microseconds past midnight of day [day], in which the
    clips [clips] exist and [files] gives the playlist files. *)
Definition world (t day : Z) (clips : list string) (files : Z -> file) : Env :=
  {| wall_time := t;
     wall_date := day;
     path_exists := fun p => existsb (String.eqb p) clips;
     probe := fun _ => ProbeFailed;
     playlist_file := files |}.

Definition no_files : Z -> file := fun _ => Missing.

(** One file, for day [day]. *)
Definition one_file (day mtime : Z) (content : option Playlist) : Z -> file :=
  fun d => if d =? day then File mtime content else Missing.

Definition clip (src : string) (i o d : Z) : ClipNode :=
  {| source := src; node_in := JNum i; node_out := JNum o; duration := JNum d |}.

Definition day_2024_01_15 : Z := toordinal 2024 1 15.

(** The playlist of scenario S1: begin 06:00:00, one clip of an hour. *)
Definition s1_playlist : Playlist :=
  {| pl_begin := Some (Hms (sec 6) 0 0);
     pl_has_length := false;
     pl_program := Some [clip "a.mp4" 0 (sec 3600) (sec 3600)] |}.


(** The same configuration in copy mode. *)
Definition cfg_copy : Config :=
  {| pre_comp_w := 1024;
     pre_comp_h := 576;
     pre_comp_protocols := "['http', 'https', 'rtmp']";
     pre_comp_copy := true;
     playlist_start := 6;
     playlist_filler := "/media/filler.mp4";
     playlist_blackclip := "/media/black.mp4";
     playlist_shift := 0;
     playlist_map_ext := None;
     buffer_length := 5;
     buffer_tol := 500000 |}.

(** Copy mode with a black clip whose path is the word [lavfi]. *)
Definition cfg_copy_lavfi : Config :=
  {| pre_comp_w := 1024;
     pre_comp_h := 576;
     pre_comp_protocols := "['http', 'https', 'rtmp']";
     pre_comp_copy := true;
     playlist_start := 6;
     playlist_filler := "/media/filler.mp4";
     playlist_blackclip := "lavfi";
     playlist_shift := 0;
     playlist_map_ext := None;
     buffer_length := 5;
     buffer_tol := 500000 |}.

Definition s1_file : Z -> file :=
  one_file day_2024_01_15 1705000000 (Some s1_playlist).

(** A playlist for 2024-01-15 that ends at 04:01:00 of the next morning. *)
Definition short_playlist : Playlist :=
  {| pl_begin := Some (Hms (sec 6) 0 0);
     pl_has_length := false;
     pl_program := Some [clip "x.mp4" 0 (sec 79140) (sec 79140);
                         clip "y.mp4" 0 (sec 60) (sec 60);
                         clip "z.mp4" 0 (sec 60) (sec 60)] |}.

Definition short_file : Z -> file :=
  one_file day_2024_01_15 1705000000 (Some short_playlist).

(** 2024-01-16, 03:59:30 and 03:59:31 *)
Definition short_env (t : Z) : Env :=
  world t (day_2024_01_15 + 1) ["x.mp4"; "y.mp4"; "z.mp4"] short_file.

(** The scheduler after its first pass at 03:59:30, which seeks into
    [y.mp4]. *)
Definition short_after_first : GetSourceIter :=
  match next_pass cfg0 (short_env (sec 14370))
                  (init cfg0 (short_env (sec 14370))) with
  | Ok (self, _) _ => self
  | Raise _ _ => init cfg0 (short_env (sec 14370))
  end.

(** The playlist of scenario S3: one clip that is not there. *)
Definition gone_playlist : Playlist :=
  {| pl_begin := Some (Hms (sec 6) 0 0);
     pl_has_length := false;
     pl_program := Some [clip "gone.mp4" 0 (sec 10) (sec 10)] |}.

Definition gone_env : Env :=
  world (sec 21600) day_2024_01_15 []
        (one_file day_2024_01_15 1705000000 (Some gone_playlist)).

(** A playlist with begin and length and no clips. *)
Definition empty_playlist : Playlist :=
  {| pl_begin := Some (Hms (sec 6) 0 0);
     pl_has_length := true;
     pl_program := Some [] |}.

(** 2024-01-15, 06:00:30: no playlist file; 06:01:00: the file of S1. *)
Definition late_env_1 : Env := world (sec 21630) day_2024_01_15 ["a.mp4"] no_files.
Definition late_env_2 : Env := world (sec 21660) day_2024_01_15 ["a.mp4"] s1_file.

(** The scheduler after a first pass that found no playlist file. *)
Definition late_after_dummy : GetSourceIter :=
  match next_pass cfg0 late_env_1 (init cfg0 late_env_1) with
  | Ok (self, _) _ => self
  | Raise _ _ => init cfg0 late_env_1
  end.

(** 2024-01-16, 05:30:00: half an hour before the day of 2024-01-15 ends. *)
Definition over_env : Env :=
  world (sec 19800) (day_2024_01_15 + 1) ["z.mp4"] no_files.

(** 2024-01-16, 05:59:00 *)
Definition before_start_env : Env :=
  world (sec 21540) (day_2024_01_15 + 1) ["a.mp4"] no_files.

(** 2024-01-16, 05:58:14.5: a clip of 100 s would end on [ref_time] exactly
    once buffer length and tolerance are added. *)
Definition boundary_env : Env :=
  world (sec 21494 + 500000) (day_2024_01_15 + 1) ["z.mp4"] no_files.

(** 05:59:55 on day [day]. *)
Definition s1_env (day : Z) : Env := world (sec 21595) day ["a.mp4"] s1_file.

(** 2024-01-15, 06:00:00 *)
Definition s1_env_on_the_hour : Env :=
  world (sec 21600) day_2024_01_15 ["a.mp4"] s1_file.

(* ------------------------------------------------------------------ *)
(** ** The validator: [check_start_and_length] and [check_json]

    [validate_thread] runs [check_json] in a daemon thread; the function
    itself is sequential and is modelled here.  Its notifications are kept
    apart from those of the scheduler.  The error text is kept as the list
    of its lines, each the flags [a + b + c] and the node of the line; the
    value of ["length"], which the scheduler never reads, is a parameter. *)










(* ------------------------------------------------------------------ *)
(** ** Tactics *)




(* ------------------------------------------------------------------ *)
(** * Properties *)

(** ** Helper lemmas *)

Lemma bind_Ok_inv {A B} (m : res A) (f : A -> res B) b l :
  bind m f = Ok b l ->
  exists a l1 l2, m = Ok a l1 /\ f a = Ok b l2 /\ l = l1 ++ l2.
Proof.
  unfold bind. destruct m as [a l1 | e l1]; [| discriminate].
  destruct (f a) as [b' l2 | e l2] eqn:E; [| discriminate].
  intros H. inversion H; subst. exists a, l1, l2. auto.
Qed.


Lemma clip_not_exist_log cfg src seek out dl :
  exists d, clip_not_exist cfg src seek out dl
            = Ok (gen_dummy cfg d) [clip_missing src].
Proof.
  unfold clip_not_exist. destruct dl as [d |]; cbn.
  - destruct (negb (d =? 0) && negb (pre_comp_copy cfg)); cbn; eauto.
  - eauto.
Qed.

Lemma src_or_dummy_log cfg env src dur seek out dl c l :
  src_or_dummy cfg env src dur seek out dl = Ok c l ->
  l = [] \/ l = [clip_missing src].
Proof.
  unfold src_or_dummy.
  destruct (clip_not_exist_log cfg src seek out dl) as [d Hd].
  rewrite Hd.
  destruct (live_source cfg src).
  - destruct (probe env src); intros H; inversion H; auto.
  - destruct (check_file_exist env src).
    + destruct ((0 <? seek) || (out <? dur)); intros H; inversion H; auto.
    + intros H; inversion H; auto.
Qed.

Lemma first_row_iff cfg env begin seek out last :
  ((time_diff cfg env (out - seek) <=? ref_time cfg) || (begin <? sec 86400))
  && negb last = true
  <-> first_row cfg env begin seek out last.
Proof.
  unfold first_row.
  rewrite andb_true_iff, orb_true_iff, Z.leb_le, Z.ltb_lt, negb_true_iff.
  reflexivity.
Qed.

Lemma has_lavfi_In (c : cmd) : has_lavfi c = true <-> In (Lit "lavfi") c.
Proof.
  unfold has_lavfi. rewrite existsb_exists. split.
  - intros (a & Hin & Ha). destruct a; try discriminate.
    cbn in Ha. apply String.eqb_eq in Ha. now subst.
  - intros H. exists (Lit "lavfi"). split; [assumption | reflexivity].
Qed.

Lemma has_lavfi_not_In (c : cmd) : has_lavfi c = false <-> ~ In (Lit "lavfi") c.
Proof.
  rewrite <- has_lavfi_In. now destruct (has_lavfi c).
Qed.

Lemma check_last_item_first cfg env c lt last lt' log :
  check_last_item cfg env c lt last = Ok (true, lt') log ->
  last = false /\ (c = None \/ exists v, c = Some v /\ In (Lit "lavfi") v).
Proof.
  unfold check_last_item. destruct c as [v |].
  - destruct (has_lavfi v) eqn:Hv; destruct last; cbn; intros H;
      inversion H; subst.
    split; [reflexivity |]. right. exists v. split; [reflexivity |].
    now apply has_lavfi_In.
  - destruct last; cbn; intros H; inversion H. auto.
Qed.

Lemma walk_skip cfg env program pre rest self lt b :
  first self = true ->
  last_time self = Some lt ->
  skipped (dummy_len self) lt b pre ->
  walk cfg env program (pre ++ rest) (set_begin (Some b) self)
  = walk cfg env program rest
      (set_begin (Some (playhead (dummy_len self) b pre)) self).
Proof.
  intros Hfirst Hlt. revert b.
  induction pre as [| node pre IH]; intros b Hskip; [reflexivity |].
  destruct Hskip as (Hdur & Hbeg & Hskip).
  cbn [app walk playhead].
  cbn [begin first last_time dummy_len set_begin].
  rewrite Hfirst, Hlt.
  assert (H1 : (lt <? b + float_or (duration node) (dummy_len self)) = false)
    by (apply Z.ltb_ge; exact Hdur).
  assert (H2 : negb (lt =? 0) && (lt <? b) = false).
  { destruct Hbeg as [-> | Hbeg]; [reflexivity |].
    apply andb_false_iff. right. now apply Z.ltb_ge. }
  rewrite H1, H2.
  apply (IH _ Hskip).
Qed.

Lemma check_sync_returns cfg env begin :
  exists log, check_sync cfg env begin = Ok tt log.
Proof.
  unfold check_sync. destruct (negb _); eexists; reflexivity.
Qed.

Lemma error_handling_not_last cfg env message self :
  last self = false ->
  error_handling cfg env message self
  = Ok (set_last_mod_time 0
          (set_dummy_len (sec 60)
             (set_last false
                (set_begin
                   (Some (full_sec cfg env + sec (buffer_length cfg)
                          + buffer_tol cfg))
                   (set_first true
                      (set_last_time
                         (Some (into_frame cfg
                                  (full_sec cfg env + dummy_len self
                                   + sec (buffer_length cfg) + buffer_tol cfg)))
                         (set_src_cmd (Some (gen_dummy cfg (dummy_len self)))
                            self)))))))
       [{| n_message := message; n_detail := DJson (json_file self) |}].
Proof.
  intros Hlast. unfold error_handling.
  cbn [last set_src_cmd]. rewrite Hlast. reflexivity.
Qed.

Lemma error_handling_dummy cfg env message self :
  exists self',
    error_handling cfg env message self
    = Ok self' [{| n_message := message; n_detail := DJson (json_file self) |}]
    /\ src_cmd self' = Some (gen_dummy cfg (dummy_len self))
    /\ clip_nodes self' = clip_nodes self
    /\ list_date self' = list_date self
    /\ dummy_len self' = sec 60
    /\ last_mod_time self' = 0
    /\ last self' = false.
Proof.
  unfold error_handling. cbn [last set_src_cmd].
  destruct (last self); cbn; eexists; split; try reflexivity;
    cbn; repeat split.
Qed.

(** ** C1: load failures *)

(** C1 (as amended).  A pass yields [gen_dummy(dummy_len)] with one
    notification and no exception when the playlist file is missing and no
    playlist is cached ("Playlist not exist:"), and when a newer file holds
    a begin that parses, no clips, and a length key or a begin that is not
    behind the clock ("Playlist is not valid!"). *)
Theorem load_failure_dummy (cfg : Config) (env : Env) (self : GetSourceIter) :
  (playlist_file env (list_date self) = Missing ->
   clip_nodes self = None ->
   exists self',
     next_pass cfg env self
     = Ok (self', Yield (Some (gen_dummy cfg (dummy_len self))))
          [playlist_not_exist self]
     /\ list_date self' = list_date self
     /\ dummy_len self' = sec 60
     /\ last_mod_time self' = 0)
  /\ (forall mtime nodes h m s,
        playlist_file env (list_date self) = File mtime (Some nodes) ->
        last_mod_time self < mtime ->
        pl_program nodes = Some [] ->
        pl_begin nodes = Some (Hms h m s) ->
        pl_has_length nodes = true
        \/ full_sec cfg env <= h * 3600 + m * 60 + s ->
        src_cmd self <> None \/ last self = false ->
        exists self',
          next_pass cfg env self
          = Ok (self', Yield (Some (gen_dummy cfg (dummy_len self))))
               [playlist_not_valid self]
          /\ list_date self' = list_date self
          /\ dummy_len self' = sec 60
          /\ last_mod_time self' = 0).
Proof.
  split.
  - intros Hfile Hnone.
    unfold next_pass, get_playlist. cbn [list_date set_json_file]. rewrite Hfile.
    destruct (error_handling_dummy cfg env "Playlist not exist:"
                (set_json_file (Some (list_date self)) self))
      as (self' & Heh & Hcmd & Hnodes & Hdate & Hdl & Hmod & _).
    rewrite Heh. cbn [bind]. rewrite Hnodes. cbn [clip_nodes set_json_file].
    rewrite Hnone, Hcmd. cbn.
    exists self'. repeat split; assumption.
  - intros mtime nodes h m s Hfile Hmod Hprog Hbegin Hend Hsafe.
    unfold next_pass, get_playlist. cbn [list_date last_mod_time set_json_file].
    rewrite Hfile. apply Z.ltb_lt in Hmod. rewrite Hmod. cbn [ret bind].
    cbn [clip_nodes src_cmd last_time last set_last_mod_time set_clip_nodes
         set_json_file app].
    assert (Hcli : exists fl,
      check_last_item cfg env (src_cmd self) (last_time self) (last self)
      = Ok fl []).
    { unfold check_last_item. destruct (src_cmd self) as [c |].
      - destruct (has_lavfi c && negb (last self)); eexists; reflexivity.
      - destruct Hsafe as [H | ->]; [congruence |]. eexists. reflexivity. }
    destruct Hcli as (fl & Hcli). rewrite Hcli. cbn [bind app].
    rewrite Hbegin, Hprog. cbn [ret bind walk app].
    assert (Hreach : (if negb (pl_has_length nodes)
                      then (h * 3600 + m * 60 + s <? full_sec cfg env)
                      else false) = false).
    { destruct Hend as [-> | H]; [reflexivity |].
      destruct (negb (pl_has_length nodes)); [| reflexivity].
      now apply Z.ltb_ge. }
    cbn [begin set_begin].
    destruct (negb (pl_has_length nodes)); cbn [ret bind app];
      rewrite ?Hreach;
      match goal with
      | |- context [error_handling cfg env ?msg ?st] =>
          destruct (error_handling_dummy cfg env msg st)
            as (self' & Heh & Hcmd & _ & Hdate & Hdl & Hmod' & _);
          rewrite Heh; cbn [bind app]; unfold yield_src_cmd; rewrite Hcmd;
          exists self'; repeat split; assumption
      end.
Qed.

(** C1, witness: no file at 06:00:30, and an empty playlist at
    06:00:00. *)
Lemma load_failure_dummy_witness :
  (exists self',
      next_pass cfg0 late_env_1 (init cfg0 late_env_1)
      = Ok (self', Yield (Some (gen_dummy cfg0 (sec 60))))
           [playlist_not_exist (init cfg0 late_env_1)]
      /\ list_date self' = day_2024_01_15
      /\ dummy_len self' = sec 60
      /\ last_mod_time self' = 0)
  /\ (let env := world (sec 21600) day_2024_01_15 []
                       (one_file day_2024_01_15 1705000000
                                 (Some empty_playlist)) in
      exists self',
        next_pass cfg0 env (init cfg0 env)
        = Ok (self', Yield (Some (gen_dummy cfg0 (sec 60))))
             [playlist_not_valid (init cfg0 env)]
        /\ list_date self' = day_2024_01_15
        /\ dummy_len self' = sec 60
        /\ last_mod_time self' = 0).
Proof.
  split.
  - apply (proj1 (load_failure_dummy cfg0 late_env_1 (init cfg0 late_env_1)));
      reflexivity.
  - intros env.
    apply (proj2 (load_failure_dummy cfg0 env (init cfg0 env))
             1705000000 empty_playlist (sec 6) 0 0).
    + reflexivity.
    + reflexivity.
    + reflexivity.
    + reflexivity.
    + left. reflexivity.
    + right. reflexivity.
Defined.

(** C1, counterexample.  A playlist file that [json.load] rejects: the
    pass raises. *)
Lemma malformed_playlist_raises :
  let env := world (sec 43200) day_2024_01_15 []
                   (one_file day_2024_01_15 1705000000 None) in
  next_pass cfg0 env (init cfg0 env) = Raise JSONDecodeError [].
Proof. reflexivity. Qed.

(** ** C2: resync after a dummy *)

(** C2 (as amended).  [check_last_item] sets [first] and moves
    [last_time] to the clock in the frame (after [None]) or to the clock
    plus buffer length and tolerance in the frame (after a command that
    holds 'lavfi'), with no [dummy_len] term; otherwise it clears [first]
    and leaves [last_time].  In the pass that follows a dummy, the clip
    before which the playhead [b] stands and which contains that time is
    handed to [gen_input] with seek [last_time - b + in], [last_time] being
    the clock of that pass plus buffer length and tolerance. *)
Theorem resync_after_dummy (cfg : Config) (env : Env) :
  let after_buffer :=
    into_frame cfg (full_sec cfg env + sec (buffer_length cfg) + buffer_tol cfg) in
  (forall lt,
      check_last_item cfg env None lt false
      = Ok (true, Some (into_frame cfg (full_sec cfg env))) [])
  /\ (forall c lt,
        In (Lit "lavfi") c ->
        check_last_item cfg env (Some c) lt false
        = Ok (true, Some after_buffer) [])
  /\ (forall c lt last,
        ~ In (Lit "lavfi") c \/ last = true ->
        check_last_item cfg env (Some c) lt last = Ok (false, lt) [])
  /\ (forall self loaded l0 c nodes h m s pre node rest,
        get_playlist cfg env self = Ok loaded l0 ->
        clip_nodes loaded = Some nodes ->
        src_cmd loaded = Some c ->
        In (Lit "lavfi") c ->
        last loaded = false ->
        pl_begin nodes = Some (Hms h m s) ->
        pl_program nodes = Some (pre ++ node :: rest) ->
        let dl := dummy_len loaded in
        let b := playhead dl (h * 3600 + m * 60 + s) pre in
        skipped dl after_buffer (h * 3600 + m * 60 + s) pre ->
        after_buffer < b + float_or (duration node) dl ->
        next_pass cfg env self =
          (Ok tt l0 ;;;
           r <- gen_input cfg env (mapped_source cfg node) b
                          (float_or (duration node) dl)
                          (after_buffer - b + float_or (node_in node) 0)
                          (float_or (node_out node) dl) false ;;
           match r with
           | None => Raise TypeError []
           | Some (c', tl) =>
               ret (yield_src_cmd
                      (set_last_time (Some b)
                         (set_first false
                            (set_time_left tl
                               (set_src_cmd c'
                                  (set_begin (Some b)
                                     (set_last_time (Some after_buffer)
                                        (set_first true loaded))))))))
           end)).
Proof.
  intros after_buffer. repeat split.
  - intros c lt Hin. unfold check_last_item.
    apply has_lavfi_In in Hin. now rewrite Hin.
  - intros c lt last [Hno | ->]; unfold check_last_item.
    + apply has_lavfi_not_In in Hno. now rewrite Hno.
    + now rewrite andb_false_r.
  - intros self loaded l0 c nodes h m s pre node rest
      Hget Hnodes Hcmd Hin Hlast Hbegin Hprog dl b Hskip Hres.
    unfold next_pass. rewrite Hget. cbn [bind].
    rewrite Hnodes, Hcmd, Hlast.
    unfold check_last_item. apply has_lavfi_In in Hin. rewrite Hin.
    cbn [andb negb ret bind fst snd]. fold after_buffer.
    rewrite Hbegin, Hprog. cbn [ret bind].
    set (self1 := set_last_time (Some after_buffer) (set_first true loaded)).
    rewrite (walk_skip cfg env _ pre (node :: rest) self1 after_buffer _
               eq_refl eq_refl Hskip).
    cbn [walk begin first last_time dummy_len set_begin].
    subst self1. cbn [first last_time dummy_len set_last_time set_first].
    fold dl. fold b.
    apply Z.ltb_lt in Hres. rewrite Hres.
    destruct (gen_input _ _ _ _ _ _ _ _) as [[[c' tl] |] lg | e lg];
      cbn; rewrite ?app_nil_r; reflexivity.
Qed.

(** C2, witness: the pass at 06:01:00 that follows the dummy. *)
Lemma resync_after_dummy_witness :
  In (Lit "lavfi") (gen_dummy cfg0 (sec 60))
  /\ next_pass cfg0 late_env_2 late_after_dummy
     = Ok (set_last_time (Some (sec 21600))
             (set_first false
                (set_time_left None
                   (set_src_cmd
                      (Some (seek_in_cut_end cfg0 "a.mp4" (sec 3600)
                                             (sec 65 + 500000) (sec 3600)))
                      (set_begin (Some (sec 21600))
                         (set_last_time (Some (sec 21665 + 500000))
                            (set_first true
                               (set_last_mod_time 1705000000
                                  (set_clip_nodes (Some s1_playlist)
                                     late_after_dummy)))))))),
           Yield (Some (seek_in_cut_end cfg0 "a.mp4" (sec 3600)
                                        (sec 65 + 500000) (sec 3600))))
          [].
Proof.
  assert (Hin : In (Lit "lavfi") (gen_dummy cfg0 (sec 60)))
    by (right; left; reflexivity).
  split; [exact Hin |].
  rewrite (proj2 (proj2 (proj2 (resync_after_dummy cfg0 late_env_2)))
             late_after_dummy
             (set_last_mod_time 1705000000
                (set_clip_nodes (Some s1_playlist) late_after_dummy))
             [] (gen_dummy cfg0 (sec 60)) s1_playlist (sec 6) 0 0
             [] (clip "a.mp4" 0 (sec 3600) (sec 3600)) []
             eq_refl eq_refl eq_refl Hin eq_refl eq_refl eq_refl I eq_refl).
  reflexivity.
Defined.

(** C2, counterexample.  After a 60 s dummy [check_last_item] at 12:00:00
    gives 12:00:05.5, not 12:01:05.5; and a dummy emitted at 06:00:30
    followed by a pass at 06:01:00 seeks 65.5 s into the clip, not
    30 + 60 + 5.5 s. *)
Lemma check_last_item_omits_dummy_len :
  let env := world (sec 43200) day_2024_01_15 [] no_files in
  let dummy := gen_dummy cfg0 (sec 60) in
  check_last_item cfg0 env (Some dummy) (Some (sec 43000)) false
  = Ok (true, Some (sec 43205 + 500000)) []
  /\ sec 43205 + 500000
     <> into_frame cfg0 (full_sec cfg0 env + sec 60
                         + sec (buffer_length cfg0) + buffer_tol cfg0)
  /\ (exists self,
        next cfg0 [late_env_1; late_env_2] (init cfg0 late_env_1)
        = Ok ([Some (gen_dummy cfg0 (sec 60));
               Some (seek_in_cut_end cfg0 "a.mp4" (sec 3600)
                                     (sec 65 + 500000) (sec 3600))],
              false, self)
             [playlist_not_exist (init cfg0 late_env_1)])
  /\ sec 65 + 500000
     <> (full_sec cfg0 late_env_1 + sec 60
         + sec (buffer_length cfg0) + buffer_tol cfg0) - sec 21600 + 0.
Proof.
  vm_compute. repeat split; try discriminate.
  eexists. reflexivity.
Qed.

(** ** C3: the cap on the playable span *)

(** C3 (as amended).  Outside the first row and with [seek >= 0], every
    command of [gen_input] is a dummy of length [o - s] or what
    [src_or_dummy] makes of the span from [s] to [o], with [o - s] at most
    [ref_time] minus (buffer length + tolerance + now in the frame), and
    below [out - seek] whenever [time_diff] exceeds [ref_time]. *)
Theorem gen_input_span_cap (cfg : Config) (env : Env) (src : string)
    (begin dur seek out : Z) (last : bool) (c : cmd) (tl : option Z)
    (log : list notice) :
  gen_input cfg env src begin dur seek out last = Ok (Some (Some c, tl)) log ->
  ~ first_row cfg env begin seek out last ->
  0 <= seek ->
  exists s o,
    (c = gen_dummy cfg (o - s)
     \/ exists l, src_or_dummy cfg env src dur s o None = Ok c l)
    /\ o - s <= ref_time cfg
                - (sec (buffer_length cfg) + buffer_tol cfg + frame_time cfg env)
    /\ (ref_time cfg < time_diff cfg env (out - seek) -> o - s < out - seek).
Proof.
  intros Hgi Hrow Hseek.
  assert (Hb : ((time_diff cfg env (out - seek) <=? ref_time cfg)
                || (begin <? sec 86400)) && negb last = false).
  { destruct (_ && negb last) eqn:E; [| reflexivity].
    apply first_row_iff in E. contradiction. }
  unfold gen_input in Hgi.
  replace (sec (buffer_length cfg) + buffer_tol cfg + out - seek
           + frame_time cfg env) with (time_diff cfg env (out - seek)) in Hgi
    by (unfold time_diff; lia).
  change (sec 86400 + sec (playlist_start cfg * 3600)) with (ref_time cfg) in Hgi.
  change (sec (buffer_length cfg) + buffer_tol cfg + dur
          + frame_time cfg env) with (time_diff cfg env dur) in Hgi.
  rewrite Hb in Hgi.
  set (rest := ref_time cfg
               - (sec (buffer_length cfg) + buffer_tol cfg + frame_time cfg env)).
  destruct (Z.ltb_spec (time_diff cfg env (out - seek)) (ref_time cfg))
    as [Hlt | Hge]; destruct last; cbn [andb] in Hgi.
  - (* under time, last clip *)
    destruct (Z.leb_spec (ref_time cfg) (time_diff cfg env dur)) as [Hd | Hd];
      apply bind_Ok_inv in Hgi as (c' & l1 & l2 & Hsrc & Hret & _).
    + inversion Hret; subst c'.
      destruct (String.eqb src (playlist_filler cfg)).
      * eexists _, _. split; [right; eauto |].
        unfold time_diff in *; subst rest; lia.
      * eexists _, _. split; [right; eauto |].
        unfold time_diff in *; subst rest; lia.
    + apply bind_Ok_inv in Hret as (u & l3 & l4 & _ & Hret & _).
      inversion Hret; subst c'.
      exists 0, dur. split; [right; eauto |].
      unfold time_diff in *; subst rest; lia.
  - destruct (Z.ltb_spec (ref_time cfg) (time_diff cfg env (out - seek)));
      [| discriminate Hgi].
    lia.
  - (* over time *)
    destruct (Z.ltb_spec (ref_time cfg) (time_diff cfg env (out - seek)))
      as [Hover | Hnot]; [| discriminate Hgi].
    destruct (sec 5 <? _) eqn:E5.
    + apply bind_Ok_inv in Hgi as (c' & l1 & l2 & Hsrc & Hret & _).
      inversion Hret; subst c'.
      destruct (String.eqb src (playlist_filler cfg)).
      * eexists _, _. split; [right; eauto |].
        unfold time_diff in *; subst rest; lia.
      * eexists _, _. split; [right; eauto |].
        unfold time_diff in *; subst rest; lia.
    + destruct (sec 1 <? _) eqn:E1; inversion Hgi; subst.
      exists 0, (out - seek - (time_diff cfg env (out - seek) - ref_time cfg)).
      split; [left; f_equal; lia |].
      unfold time_diff in *; subst rest; lia.
  - (* over time, not last *)
    destruct (Z.ltb_spec (ref_time cfg) (time_diff cfg env (out - seek)))
      as [Hover | Hnot]; [| discriminate Hgi].
    destruct (sec 5 <? _) eqn:E5.
    + apply bind_Ok_inv in Hgi as (c' & l1 & l2 & Hsrc & Hret & _).
      inversion Hret; subst c'.
      destruct (String.eqb src (playlist_filler cfg)).
      * eexists _, _. split; [right; eauto |].
        unfold time_diff in *; subst rest; lia.
      * eexists _, _. split; [right; eauto |].
        unfold time_diff in *; subst rest; lia.
    + destruct (sec 1 <? _) eqn:E1; inversion Hgi; subst.
      exists 0, (out - seek - (time_diff cfg env (out - seek) - ref_time cfg)).
      split; [left; f_equal; lia |].
      unfold time_diff in *; subst rest; lia.
Qed.

(** C3, witness: the truncated clip of the C5 witness. *)
Lemma gen_input_span_cap_witness :
  exists s o,
    (seek_in_cut_end cfg0 "z.mp4" (sec 3600) 0 (sec 1794 + 500000)
     = gen_dummy cfg0 (o - s)
     \/ exists l,
         src_or_dummy cfg0 over_env "z.mp4" (sec 3600) s o None
         = Ok (seek_in_cut_end cfg0 "z.mp4" (sec 3600) 0 (sec 1794 + 500000)) l)
    /\ o - s <= ref_time cfg0
                - (sec (buffer_length cfg0) + buffer_tol cfg0
                   + frame_time cfg0 over_env)
    /\ (ref_time cfg0 < time_diff cfg0 over_env (sec 3600 - 0) ->
        o - s < sec 3600 - 0).
Proof.
  apply (gen_input_span_cap cfg0 over_env "z.mp4" (sec 106200) (sec 3600) 0
           (sec 3600) false _ (Some 0) []).
  - reflexivity.
  - intros [[H | H] _]; vm_compute in H; [apply H; reflexivity | discriminate H].
  - discriminate.
Defined.

(** C3, counterexample.  At 05:59:00 a clip of an hour that begins at
    06:00:00 ([begin < 86400], not last) is rendered in full although
    [time_diff] exceeds [ref_time] and only 60 s remain. *)
Lemma first_row_ignores_ref_time :
  gen_input cfg0 before_start_env "a.mp4" (sec 21600) (sec 3600) 0 (sec 3600)
            false
  = Ok (Some (Some [Lit "-i"; Lit "a.mp4"; Lit "-filter_complex";
                    Lit "[0:a]apad[a]"; Lit "-shortest"; Lit "-map";
                    Lit "0:v"; Lit "-map"; Lit "[a]"],
              None)) []
  /\ ref_time cfg0 < time_diff cfg0 before_start_env (sec 3600 - 0)
  /\ ref_time cfg0 - frame_time cfg0 before_start_env = sec 60.
Proof. repeat split. Qed.

(** ** C4: the last clip, under time *)

(** C4 (as amended).  With [last] true and [time_diff < ref_time],
    [new_len = dur - (time_diff' - ref_time)] for
    [time_diff' = buffer_length + tolerance + dur + now]: when
    [new_len <= dur] the clip is rendered from 0 to [new_len] (from
    [dur - new_len] to [dur] for the filler clip) without a notification;
    when [dur < new_len] it is rendered in full and "playlist is not long
    enough:" is sent.  [time_left] is [new_len - dur], positive exactly when
    that notification is sent. *)
Theorem gen_input_under_time (cfg : Config) (env : Env) (src : string)
    (begin dur seek out : Z) :
  let new_len := dur - (time_diff cfg env dur - ref_time cfg) in
  time_diff cfg env (out - seek) < ref_time cfg ->
  (new_len <= dur ->
   gen_input cfg env src begin dur seek out true =
     (c <- (if String.eqb src (playlist_filler cfg)
            then src_or_dummy cfg env src dur (dur - new_len) dur None
            else src_or_dummy cfg env src dur 0 new_len None) ;;
      ret (Some (Some c, Some (new_len - dur)))))
  /\ (dur < new_len ->
      gen_input cfg env src begin dur seek out true =
        (c <- src_or_dummy cfg env src dur 0 dur None ;;
         Ok (Some (Some c, Some (new_len - dur))) [not_long_enough new_len]))
  /\ (forall r log,
        gen_input cfg env src begin dur seek out true = Ok r log ->
        exists c, r = Some (Some c, Some (new_len - dur))
                  /\ (0 < new_len - dur <-> In (not_long_enough new_len) log)).
Proof.
  intros new_len Hunder.
  assert (Hgi : gen_input cfg env src begin dur seek out true =
    if ref_time cfg <=? time_diff cfg env dur then
      c <- (if String.eqb src (playlist_filler cfg)
            then src_or_dummy cfg env src dur (dur - new_len) dur None
            else src_or_dummy cfg env src dur 0 new_len None) ;;
      ret (Some (Some c, Some (new_len - dur)))
    else
      c <- src_or_dummy cfg env src dur 0 dur None ;;
      Ok (Some (Some c, Some (new_len - dur))) [not_long_enough new_len]).
  { unfold gen_input.
    replace (sec (buffer_length cfg) + buffer_tol cfg + out - seek
             + frame_time cfg env) with (time_diff cfg env (out - seek))
      by (unfold time_diff; lia).
    change (sec 86400 + sec (playlist_start cfg * 3600)) with (ref_time cfg).
    change (sec (buffer_length cfg) + buffer_tol cfg + dur
            + frame_time cfg env) with (time_diff cfg env dur).
    fold new_len.
    rewrite andb_false_r, andb_true_r.
    apply Z.ltb_lt in Hunder. rewrite Hunder.
    destruct (ref_time cfg <=? time_diff cfg env dur); [reflexivity |].
    destruct (src_or_dummy cfg env src dur 0 dur None); reflexivity. }
  rewrite Hgi. repeat split.
  - intros H.
    assert (Hb : (ref_time cfg <=? time_diff cfg env dur) = true)
      by (apply Z.leb_le; subst new_len; lia).
    now rewrite Hb.
  - intros H.
    assert (Hb : (ref_time cfg <=? time_diff cfg env dur) = false)
      by (apply Z.leb_gt; subst new_len; lia).
    now rewrite Hb.
  - intros r log.
    destruct (Z.leb_spec (ref_time cfg) (time_diff cfg env dur)) as [Hb | Hb];
      intros H; apply bind_Ok_inv in H as (c & l1 & l2 & Hsrc & H & ->);
      inversion H; subst; exists c; split; try reflexivity.
    + split; [subst new_len; lia |].
      rewrite app_nil_r. intros Hin.
      assert (Hl : l1 = [] \/ l1 = [clip_missing src]).
      { destruct (String.eqb src (playlist_filler cfg));
          eapply src_or_dummy_log; eassumption. }
      destruct Hl as [-> | ->]; cbn in Hin; [easy |].
      destruct Hin as [Hin | []]. discriminate Hin.
    + split; [| subst new_len; lia].
      intros _. apply in_or_app. right. now left.
Qed.

(** C4, witness: at 03:59:31 the last clip of a short playlist. *)
Lemma gen_input_under_time_witness :
  time_diff cfg0 (short_env (sec 14371)) (sec 60 - 0) < ref_time cfg0
  /\ gen_input cfg0 (short_env (sec 14371)) "z.mp4" (sec 100800) (sec 60) 0
               (sec 60) true
     = Ok (Some (Some [Lit "-i"; Lit "z.mp4"; Lit "-filter_complex";
                       Lit "[0:a]apad[a]"; Lit "-shortest"; Lit "-map";
                       Lit "0:v"; Lit "-map"; Lit "[a]"],
                 Some (sec 7163 + 500000)))
          [not_long_enough (sec 7223 + 500000)].
Proof.
  assert (Hunder : time_diff cfg0 (short_env (sec 14371)) (sec 60 - 0)
                   < ref_time cfg0) by reflexivity.
  split; [exact Hunder |].
  rewrite (proj1 (proj2 (gen_input_under_time cfg0 (short_env (sec 14371))
                           "z.mp4" (sec 100800) (sec 60) 0 (sec 60) Hunder)));
    reflexivity.
Defined.

(** C4, counterexample.  When the last clip ends on [ref_time] exactly,
    [new_len] equals [dur] (so [new_len < dur] fails), the clip is rendered
    in full and nothing is sent. *)
Lemma exact_fit_is_not_notified :
  let new_len := sec 100 - (time_diff cfg0 boundary_env (sec 100) - ref_time cfg0) in
  time_diff cfg0 boundary_env (sec 50 - 0) <= ref_time cfg0
  /\ ~ new_len < sec 100
  /\ gen_input cfg0 boundary_env "z.mp4" (sec 107000) (sec 100) 0 (sec 50) true
     = Ok (Some (Some [Lit "-i"; Lit "z.mp4"; Lit "-filter_complex";
                       Lit "[0:a]apad[a]"; Lit "-shortest"; Lit "-map";
                       Lit "0:v"; Lit "-map"; Lit "[a]"],
                 Some 0)) [].
Proof.
  repeat split; vm_compute; discriminate.
Qed.

(** ** C5: over time *)

(** C5.  When [time_diff] exceeds [ref_time] and the first row does not
    apply, [gen_input] is decided by
    [new_len = out - seek - (time_diff - ref_time)]: above 5 s the clip goes
    to [src_or_dummy] truncated (from [out - new_len] to [out] for the
    filler clip, else from [seek] to [new_len]); above 1 s up to 5 s a dummy
    of [new_len]; otherwise no command; and [time_left] is 0 in every
    case. *)
Theorem gen_input_over_time (cfg : Config) (env : Env) (src : string)
    (begin dur seek out : Z) (last : bool) :
  let new_len :=
    out - seek - (time_diff cfg env (out - seek) - ref_time cfg) in
  ref_time cfg < time_diff cfg env (out - seek) ->
  ~ first_row cfg env begin seek out last ->
  (sec 5 < new_len ->
   gen_input cfg env src begin dur seek out last =
     (c <- (if String.eqb src (playlist_filler cfg)
            then src_or_dummy cfg env src dur (out - new_len) out None
            else src_or_dummy cfg env src dur seek new_len None) ;;
      ret (Some (Some c, Some 0))))
  /\ (sec 1 < new_len <= sec 5 ->
      gen_input cfg env src begin dur seek out last =
        Ok (Some (Some (gen_dummy cfg new_len), Some 0)) [])
  /\ (new_len <= sec 1 ->
      gen_input cfg env src begin dur seek out last =
        Ok (Some (None, Some 0)) [])
  /\ (forall r log,
        gen_input cfg env src begin dur seek out last = Ok r log ->
        exists c, r = Some (c, Some 0)).
Proof.
  intros new_len Hover Hrow.
  assert (Hbr : ((time_diff cfg env (out - seek) <=? ref_time cfg)
                 || (begin <? sec 86400)) && negb last = false).
  { destruct last; [now rewrite andb_false_r |].
    rewrite andb_true_r. apply orb_false_iff. split.
    - apply Z.leb_gt. exact Hover.
    - apply Z.ltb_ge. destruct (Z.lt_ge_cases begin (sec 86400)); [| assumption].
      exfalso. apply Hrow. split; auto. }
  assert (Hbr2 : (time_diff cfg env (out - seek) <? ref_time cfg) && last
                 = false).
  { apply andb_false_iff. left. apply Z.ltb_ge. lia. }
  assert (Hbr3 : (ref_time cfg <? time_diff cfg env (out - seek)) = true)
    by (apply Z.ltb_lt; exact Hover).
  assert (Hgi : gen_input cfg env src begin dur seek out last =
    if sec 5 <? new_len then
      c <- (if String.eqb src (playlist_filler cfg)
            then src_or_dummy cfg env src dur (out - new_len) out None
            else src_or_dummy cfg env src dur seek new_len None) ;;
      ret (Some (Some c, Some 0))
    else if sec 1 <? new_len then ret (Some (Some (gen_dummy cfg new_len), Some 0))
    else ret (Some (None, Some 0))).
  { unfold gen_input.
    replace (sec (buffer_length cfg) + buffer_tol cfg + out - seek
             + frame_time cfg env) with (time_diff cfg env (out - seek))
      by (unfold time_diff; lia).
    change (sec 86400 + sec (playlist_start cfg * 3600)) with (ref_time cfg).
    rewrite Hbr, Hbr2, Hbr3. reflexivity. }
  rewrite Hgi. repeat split.
  - intros H. apply Z.ltb_lt in H. now rewrite H.
  - intros [H1 H5]. apply Z.ltb_lt in H1. apply Z.ltb_ge in H5.
    now rewrite H5, H1.
  - intros H. assert (H5 : (sec 5 <? new_len) = false)
      by (apply Z.ltb_ge; unfold sec in *; lia).
    apply Z.ltb_ge in H. now rewrite H5, H.
  - intros r log. destruct (sec 5 <? new_len).
    + intros H. apply bind_Ok_inv in H as (c & l1 & l2 & _ & H & _).
      inversion H. eauto.
    + destruct (sec 1 <? new_len); intros H; inversion H; eauto.
Qed.

(** C5, witness: at 05:30:00 a clip of an hour is cut to 1794.5 s. *)
Lemma gen_input_over_time_witness :
  ref_time cfg0 < time_diff cfg0 over_env (sec 3600 - 0)
  /\ gen_input cfg0 over_env "z.mp4" (sec 106200) (sec 3600) 0 (sec 3600) false
     = Ok (Some (Some (seek_in_cut_end cfg0 "z.mp4" (sec 3600) 0
                                       (sec 1794 + 500000)),
                 Some 0)) [].
Proof.
  assert (Hover : ref_time cfg0 < time_diff cfg0 over_env (sec 3600 - 0))
    by reflexivity.
  split; [exact Hover |].
  assert (Hrow : ~ first_row cfg0 over_env (sec 106200) 0 (sec 3600) false).
  { intros [[H | H] _]; vm_compute in H;
      [apply H; reflexivity | discriminate H]. }
  rewrite (proj1 (gen_input_over_time cfg0 over_env "z.mp4" (sec 106200)
                    (sec 3600) 0 (sec 3600) false Hover Hrow));
    reflexivity.
Defined.

(** ** C6: day rollover *)

(** C6 (as amended).  In the normal case of the loop, when [gen_input]
    returns a [time_left] that is not [None], [list_date] becomes
    [get_date(False)]: the day after [get_date(True)] when the hour is
    before day start, the same day otherwise.  With [time_left > 0],
    [dummy_len] becomes [time_left], [last_time] becomes [begin] and
    [last_mod_time] is kept; otherwise [last_time] becomes
    [start * 3600 - 5] and [last_mod_time] becomes 0. *)
Theorem day_rollover (cfg : Config) (env : Env) (program rest : list ClipNode)
    (node : ClipNode) (self : GetSourceIter) (lt b t : Z) (c : option cmd)
    (lg : list notice) :
  begin self = Some b ->
  last_time self = Some lt ->
  lt <> 0 ->
  lt < b ->
  first self = false
  \/ b + float_or (duration node) (dummy_len self) <= lt ->
  gen_input cfg env (mapped_source cfg node) b
            (float_or (duration node) (dummy_len self))
            (float_or (node_in node) 0)
            (float_or (node_out node) (dummy_len self))
            (node_eqb node (List.last program node))
  = Ok (Some (c, Some t)) lg ->
  exists self' log,
    walk cfg env program (node :: rest) self = Ok (self', true) log
    /\ list_date self' = get_date cfg env false
    /\ (0 < t ->
        dummy_len self' = t
        /\ last_time self' = Some b
        /\ last_mod_time self' = last_mod_time self)
    /\ (t <= 0 ->
        last_time self' = Some (sec (playlist_start cfg * 3600 - 5))
        /\ last_mod_time self' = 0
        /\ dummy_len self' = dummy_len self)
    /\ (hour cfg env < playlist_start cfg ->
        get_date cfg env false = get_date cfg env true + 1)
    /\ (playlist_start cfg <= hour cfg env ->
        get_date cfg env false = get_date cfg env true).
Proof.
  intros Hb Hlt Hnz Hltb Hres Hgi.
  assert (Hnormal : (negb (lt =? 0) && (lt <? b)) = true).
  { apply andb_true_iff. split.
    - apply negb_true_iff. now apply Z.eqb_neq.
    - now apply Z.ltb_lt. }
  assert (Hdates :
    (hour cfg env < playlist_start cfg ->
     get_date cfg env false = get_date cfg env true + 1)
    /\ (playlist_start cfg <= hour cfg env ->
        get_date cfg env false = get_date cfg env true)).
  { unfold get_date. rewrite andb_false_r, andb_true_r.
    destruct (Z.ltb_spec (hour cfg env) (playlist_start cfg)); split; lia. }
  destruct (check_sync_returns cfg env b) as (ls & Hsync).
  assert (Hskip1 : first self = false
                   \/ (lt <? b + float_or (duration node) (dummy_len self))
                      = false).
  { destruct Hres as [H | H]; [now left | right; now apply Z.ltb_ge]. }
  cbn [walk]. rewrite Hb, Hlt, Hnormal, Hgi, Hsync.
  destruct Hskip1 as [-> | Hs]; [| rewrite Hs; destruct (first self)];
    cbn; destruct (Z.ltb_spec 0 t); cbn;
    (eexists _, _; split; [reflexivity |]);
    cbn; repeat split; try lia; apply Hdates.
Qed.

(** C6, witness: the same pass, from the loop at its last clip. *)
Lemma day_rollover_witness :
  exists self' log,
    walk cfg0 (short_env (sec 14371))
         [clip "x.mp4" 0 (sec 79140) (sec 79140);
          clip "y.mp4" 0 (sec 60) (sec 60);
          clip "z.mp4" 0 (sec 60) (sec 60)]
         [clip "z.mp4" 0 (sec 60) (sec 60)]
         (set_begin (Some (sec 100800)) short_after_first)
    = Ok (self', true) log
    /\ list_date self' = day_2024_01_15 + 1
    /\ dummy_len self' = sec 7163 + 500000
    /\ last_time self' = Some (sec 100800)
    /\ last_mod_time self' = 1705000000.
Proof.
  destruct (day_rollover cfg0 (short_env (sec 14371))
              [clip "x.mp4" 0 (sec 79140) (sec 79140);
               clip "y.mp4" 0 (sec 60) (sec 60);
               clip "z.mp4" 0 (sec 60) (sec 60)]
              [] (clip "z.mp4" 0 (sec 60) (sec 60))
              (set_begin (Some (sec 100800)) short_after_first)
              (sec 100740) (sec 100800) (sec 7163 + 500000)
              (Some [Lit "-i"; Lit "z.mp4"; Lit "-filter_complex";
                     Lit "[0:a]apad[a]"; Lit "-shortest"; Lit "-map";
                     Lit "0:v"; Lit "-map"; Lit "[a]"])
              [not_long_enough (sec 7223 + 500000)])
    as (self' & log & Hwalk & Hdate & Hpos & _ & _ & _).
  - reflexivity.
  - reflexivity.
  - discriminate.
  - reflexivity.
  - left. reflexivity.
  - reflexivity.
  - exists self', log. split; [exact Hwalk |].
    destruct (Hpos eq_refl) as (Hdl & Hlt & Hmod).
    repeat split; assumption.
Defined.

(** C6, counterexample.  A playlist for 2024-01-15 that ends at 04:01:00:
    at 03:59:31 its last clip returns 7163.5 s of [time_left], [list_date]
    moves to 2024-01-16 and [last_mod_time] keeps the mtime of the file. *)
Lemma short_playlist_keeps_last_mod_time :
  exists self log,
    next cfg0 [short_env (sec 14370); short_env (sec 14371)]
         (init cfg0 (short_env (sec 14370)))
    = Ok ([Some (seek_in_cut_end cfg0 "y.mp4" (sec 60) (sec 30) (sec 60));
           Some [Lit "-i"; Lit "z.mp4"; Lit "-filter_complex";
                 Lit "[0:a]apad[a]"; Lit "-shortest"; Lit "-map";
                 Lit "0:v"; Lit "-map"; Lit "[a]"]],
          false, self) log
    /\ time_left self = Some (sec 7163 + 500000)
    /\ dummy_len self = sec 7163 + 500000
    /\ list_date (init cfg0 (short_env (sec 14370))) = day_2024_01_15
    /\ list_date self = day_2024_01_15 + 1
    /\ last_mod_time self = 1705000000.
Proof.
  vm_compute. eexists _, _. repeat split.
Qed.

(** ** C7: a clip that is not there *)

(** C7 (as amended).  For a clip that is no live source and does not
    exist, [src_or_dummy] sends "Clip not exist:" with the path and returns
    one dummy: of [dummy_len] when that is given, not zero, and the mode is
    not copy, else of [out - seek].  In its first row [gen_input] gives
    [dummy_len = 20]: the dummy lasts 20 s in compress mode. *)
Theorem missing_clip_dummy (cfg : Config) (env : Env) (src : string)
    (begin dur seek out : Z) :
  live_source cfg src = false ->
  path_exists env src = false ->
  (forall dummy_len,
      src_or_dummy cfg env src dur seek out dummy_len
      = Ok (gen_dummy cfg
              match dummy_len with
              | Some d =>
                  if negb (d =? 0) && negb (pre_comp_copy cfg)
                  then d
                  else out - seek
              | None => out - seek
              end)
           [clip_missing src])
  /\ (first_row cfg env begin seek out false ->
      gen_input cfg env src begin dur seek out false
      = Ok (Some (Some (gen_dummy cfg
                          (if pre_comp_copy cfg then out - seek else sec 20)),
                  None))
           [clip_missing src]).
Proof.
  intros Hlive Hgone.
  assert (Hsrc : forall dummy_len,
    src_or_dummy cfg env src dur seek out dummy_len
    = Ok (gen_dummy cfg
            match dummy_len with
            | Some d =>
                if negb (d =? 0) && negb (pre_comp_copy cfg)
                then d
                else out - seek
            | None => out - seek
            end)
         [clip_missing src]).
  { intros dl. unfold src_or_dummy, check_file_exist, clip_not_exist.
    rewrite Hlive, Hgone.
    destruct dl as [d |]; [| reflexivity].
    destruct (negb (d =? 0) && negb (pre_comp_copy cfg)); reflexivity. }
  split; [exact Hsrc |].
  intros Hrow. apply first_row_iff in Hrow.
  unfold gen_input.
  replace (sec (buffer_length cfg) + buffer_tol cfg + out - seek
           + frame_time cfg env) with (time_diff cfg env (out - seek))
    by (unfold time_diff; lia).
  change (sec 86400 + sec (playlist_start cfg * 3600)) with (ref_time cfg).
  rewrite Hrow, Hsrc.
  destruct (pre_comp_copy cfg); reflexivity.
Qed.

(** C7, witness: gone.mp4, from 0 to 10 s. *)
Lemma missing_clip_dummy_witness :
  src_or_dummy cfg0 gone_env "gone.mp4" (sec 10) 0 (sec 10) None
  = Ok (gen_dummy cfg0 (sec 10 - 0)) [clip_missing "gone.mp4"]
  /\ gen_input cfg0 gone_env "gone.mp4" (sec 21600) (sec 10) 0 (sec 10) false
     = Ok (Some (Some (gen_dummy cfg0 (sec 20)), None))
          [clip_missing "gone.mp4"].
Proof.
  destruct (missing_clip_dummy cfg0 gone_env "gone.mp4" (sec 21600) (sec 10) 0
              (sec 10) eq_refl eq_refl) as [Hsrc Hgi].
  split.
  - exact (Hsrc None).
  - apply Hgi. split; [right; reflexivity | reflexivity].
Defined.

(** C7, counterexample.  The node of S3 in a playlist that begins at
    06:00:00, at 06:00:00: the pass yields a dummy of 20 s, not of 10 s. *)
Lemma missing_clip_gets_20s_dummy :
  live_source cfg0 "gone.mp4" = false
  /\ path_exists gone_env "gone.mp4" = false
  /\ (exists self',
        next_pass cfg0 gone_env (init cfg0 gone_env)
        = Ok (self', Yield (Some (gen_dummy cfg0 (sec 20))))
             [clip_missing "gone.mp4"])
  /\ gen_dummy cfg0 (sec 20) <> gen_dummy cfg0 (sec 10 - 0).
Proof.
  vm_compute. repeat split.
  - eexists. reflexivity.
  - discriminate.
Qed.

(** ** C8: the sync check *)

(** C8 (as amended).  In the float arithmetic of the program,
    [check_sync(begin)] sends "Playlist is not sync!" exactly when [t_dist]
    lies outside the open interval
    (buffer_length - tolerance, buffer_length + tolerance), with tolerance
    60 in copy mode and [_buffer.tol * 4] otherwise.  [t_dist] is
    [begin - time_now], less 86400 when [0 <= time_now < start] unless
    [begin] is [start] itself.  It reads the configuration and the clock,
    returns nothing and alters nothing. *)
Theorem check_sync_advisory (cfg : Config) (tol time_now begin : float) :
  let start := float_of_int (playlist_start cfg * 3600) in
  let length := buffer_length cfg in
  let low :=
    if pre_comp_copy cfg
    then float_of_int (length - 60)
    else (float_of_int length - tol * 4)%float in
  let high :=
    if pre_comp_copy cfg
    then float_of_int (length + 60)
    else (float_of_int length + tol * 4)%float in
  let t_dist :=
    if (0 <=? time_now)%float && (time_now <? start)%float
       && negb (begin =? start)%float
    then (begin - time_now - 86400)%float
    else (begin - time_now)%float in
  (check_sync_float cfg tol time_now begin = Some t_dist
   <-> ~ ((low <? t_dist)%float = true /\ (t_dist <? high)%float = true))
  /\ (check_sync_float cfg tol time_now begin = None
      <-> (low <? t_dist)%float = true /\ (t_dist <? high)%float = true).
Proof.
  intros start length low high t_dist.
  subst start length low high t_dist.
  unfold check_sync_float, sync_interval, t_dist_float. cbv zeta.
  destruct (pre_comp_copy cfg);
    destruct ((0 <=? time_now)%float
              && (time_now <? float_of_int (playlist_start cfg * 3600))%float
              && negb (begin =? float_of_int (playlist_start cfg * 3600))%float);
    match goal with
    | |- context [((?a <? ?b)%float && (?c <? ?d)%float)%bool] =>
        destruct (a <? b)%float; destruct (c <? d)%float
    end; cbn;
    split; split; intros H;
    first [ discriminate H
          | reflexivity
          | exfalso; apply H; split; reflexivity
          | split; reflexivity
          | intros [H1 H2]; discriminate
          | destruct H as [H1 H2]; discriminate ].
Qed.

(** C8, counterexample.  At 05:59:55 with [begin] = 06:00:00 = day start
    the clock is not moved into the frame of the day: the drift is 5 s and
    nothing is sent, although [begin] minus the clock in the frame lies far
    outside the interval.  So it is in the model on exact numbers and in the
    floats of the program. *)
Lemma check_sync_day_start_not_translated :
  let env := world (sec 21595) (toordinal 2024 1 15) [] no_files in
  let begin := sec 21600 in
  check_sync cfg0 env begin = Ok tt []
  /\ ~ (sec (buffer_length cfg0) - buffer_tol cfg0 * 4
        < begin - frame_time cfg0 env
        < sec (buffer_length cfg0) + buffer_tol cfg0 * 4)
  /\ check_sync_float cfg0 0.5 (full_sec_float 5 59 55 0) 21600 = None
  /\ ((5 - 0.5 * 4 <? 21600 - (full_sec_float 5 59 55 0 + 86400))%float
      = false).
Proof.
  repeat split; try (vm_compute; reflexivity).
  vm_compute. intros [H _]. discriminate H.
Qed.

(** C8, at an end of the interval.  With a tolerance of 0.1 s, at
    11:59:55.3 and [begin] = 43200.7 the program computes
    [t_dist] = 5.399999999994179, below 5.4: nothing is sent.  On exact
    numbers the drift is 5.4 and a notification would be due. *)
Lemma check_sync_float_at_the_endpoint :
  let tol := 0x1.999999999999ap-4%float in
  let time_now := full_sec_float 11 59 55 300000 in
  let begin := 0x1.5181666666666p+15%float in
  check_sync_float cfg0 tol time_now begin = None
  /\ t_dist_float cfg0 time_now begin = 0x1.5999999998p+2%float.
Proof. vm_compute. split; reflexivity. Qed.

(** ** C9: scenario S1 *)

(** C9 (as amended).  With day start 6, no time shift and the playlist
    of S1 for 2024-01-15, a scheduler started on that day at 06:00:00 yields
    as its first command [a.mp4] as a whole, with no seek. *)
Theorem s1_on_the_hour (cfg : Config) (env : Env) (mtime : Z) :
  playlist_start cfg = 6 ->
  playlist_shift cfg = 0 ->
  playlist_map_ext cfg = None ->
  live_source cfg "a.mp4" = false ->
  wall_time env = sec 21600 ->
  wall_date env = day_2024_01_15 ->
  path_exists env "a.mp4" = true ->
  playlist_file env day_2024_01_15 = File mtime (Some s1_playlist) ->
  0 < mtime ->
  exists self',
    next_pass cfg env (init cfg env)
    = Ok (self',
          Yield (Some ([Lit "-i"; Lit "a.mp4"]
                       ++ (if pre_comp_copy cfg
                           then []
                           else [Lit "-filter_complex"; Lit "[0:a]apad[a]";
                                 Lit "-shortest"; Lit "-map"; Lit "0:v";
                                 Lit "-map"; Lit "[a]"]))))
         []
    /\ begin self' = Some (sec 21600)
    /\ last_time self' = Some (sec 21600)
    /\ first self' = false.
Proof.
  intros Hstart Hshift Hext Hlive Htime Hdate Hexists Hfile Hmtime.
  assert (Hnow : full_sec cfg env = sec 21600).
  { unfold full_sec. rewrite Htime, Hshift. reflexivity. }
  assert (Hlist : get_date cfg env true = day_2024_01_15).
  { unfold get_date, hour. rewrite Hnow, Hstart, Hdate, Hshift. reflexivity. }
  assert (Hframe : into_frame cfg (sec 21600) = sec 21600).
  { unfold into_frame. rewrite Hstart. reflexivity. }
  unfold next_pass, get_playlist, init.
  cbn [list_date last_mod_time set_json_file].
  rewrite Hlist, Hfile.
  apply Z.ltb_lt in Hmtime. rewrite Hmtime. cbn [ret bind].
  cbn [clip_nodes src_cmd last_time last set_last_mod_time set_clip_nodes
       set_json_file app check_last_item negb].
  rewrite Hnow, Hframe.
  cbn [ret bind fst snd app pl_begin pl_program s1_playlist].
  cbn [walk clip begin first last_time dummy_len duration node_in node_out
       float_or set_begin set_last_time set_first].
  replace (sec 6 * 3600 + 0 * 60 + 0) with (sec 21600) by reflexivity.
  replace (sec 21600 <? sec 21600 + sec 3600) with true by reflexivity.
  unfold mapped_source. rewrite Hext. cbn [source clip].
  unfold gen_input.
  replace (sec 21600 <? sec 86400) with true by reflexivity.
  rewrite orb_true_r. cbn [andb negb].
  unfold src_or_dummy, check_file_exist. rewrite Hlive, Hexists.
  replace (sec 21600 - sec 21600 + 0) with 0 by reflexivity.
  cbn [Z.ltb Z.compare orb]. rewrite Z.ltb_irrefl.
  cbn. eexists. split; [reflexivity |]. cbn. repeat split.
Qed.

(** C9, witness: the configuration [cfg0]. *)
Lemma s1_on_the_hour_witness :
  exists self',
    next_pass cfg0 s1_env_on_the_hour (init cfg0 s1_env_on_the_hour)
    = Ok (self',
          Yield (Some [Lit "-i"; Lit "a.mp4"; Lit "-filter_complex";
                       Lit "[0:a]apad[a]"; Lit "-shortest"; Lit "-map";
                       Lit "0:v"; Lit "-map"; Lit "[a]"]))
         []
    /\ begin self' = Some (sec 21600)
    /\ last_time self' = Some (sec 21600)
    /\ first self' = false.
Proof.
  apply (s1_on_the_hour cfg0 s1_env_on_the_hour 1705000000); reflexivity.
Defined.

(** C9, counterexample.  Started at 05:59:55 the scheduler yields a 60 s
    dummy: on 2024-01-15 it looks for the playlist of 2024-01-14; on
    2024-01-16 it loads the playlist of 2024-01-15 and finds no clip that
    holds the clock. *)
Lemma s1_first_emission_is_a_dummy :
  (exists self',
      next_pass cfg0 (s1_env day_2024_01_15) (init cfg0 (s1_env day_2024_01_15))
      = Ok (self', Yield (Some (gen_dummy cfg0 (sec 60))))
           [playlist_not_exist (init cfg0 (s1_env day_2024_01_15))]
      /\ list_date self' = toordinal 2024 1 14)
  /\ (exists self',
        next_pass cfg0 (s1_env (day_2024_01_15 + 1))
                  (init cfg0 (s1_env (day_2024_01_15 + 1)))
        = Ok (self', Yield (Some (gen_dummy cfg0 (sec 60))))
             [playlist_not_valid (init cfg0 (s1_env (day_2024_01_15 + 1)))]
        /\ list_date self' = day_2024_01_15).
Proof.
  vm_compute. split; eexists; split; reflexivity.
Qed.

(** ** C10: dummies in copy mode *)

(** C10 (as amended).  In copy mode, and provided the path of the black
    clip is not the word lavfi, [gen_dummy] is ['-i', blackclip], holds no
    'lavfi', and [check_last_item] answers [first = False] with [last_time]
    untouched; [check_last_item] answers [first = True] only for [None] or
    for a command that holds 'lavfi', and only with [last] false. *)
Theorem copy_dummy_no_resync (cfg : Config) (env : Env) (d : Z)
    (lt : option Z) (last : bool) :
  pre_comp_copy cfg = true ->
  playlist_blackclip cfg <> "lavfi" ->
  gen_dummy cfg d = [Lit "-i"; Lit (playlist_blackclip cfg)]
  /\ ~ In (Lit "lavfi") (gen_dummy cfg d)
  /\ check_last_item cfg env (Some (gen_dummy cfg d)) lt last = Ok (false, lt) []
  /\ (forall c lt0 last0 lt' log,
        check_last_item cfg env c lt0 last0 = Ok (true, lt') log ->
        last0 = false
        /\ (c = None \/ exists v, c = Some v /\ In (Lit "lavfi") v)).
Proof.
  intros Hcopy Hblack.
  assert (Hd : gen_dummy cfg d = [Lit "-i"; Lit (playlist_blackclip cfg)])
    by (unfold gen_dummy; now rewrite Hcopy).
  assert (Hno : ~ In (Lit "lavfi") (gen_dummy cfg d)).
  { rewrite Hd. intros [H | [H | []]]; [discriminate H |].
    inversion H. congruence. }
  repeat split; try assumption.
  - unfold check_last_item. apply has_lavfi_not_In in Hno. now rewrite Hno.
  - eapply check_last_item_first; eassumption.
  - eapply check_last_item_first; eassumption.
Qed.

(** C10, witness: copy mode with the black clip /media/black.mp4. *)
Lemma copy_dummy_no_resync_witness :
  let env := world (sec 43200) day_2024_01_15 [] no_files in
  gen_dummy cfg_copy (sec 60) = [Lit "-i"; Lit "/media/black.mp4"]
  /\ check_last_item cfg_copy env (Some (gen_dummy cfg_copy (sec 60)))
                     (Some (sec 43000)) false
     = Ok (false, Some (sec 43000)) [].
Proof.
  intros env.
  destruct (copy_dummy_no_resync cfg_copy env (sec 60) (Some (sec 43000)) false
              eq_refl) as (Hd & _ & Hc & _).
  - discriminate.
  - split; [exact Hd | exact Hc].
Defined.

(** C10, counterexample.  A black clip whose path is lavfi: the copy-mode
    dummy holds 'lavfi' and [check_last_item] answers [first = True]. *)
Lemma black_clip_named_lavfi_resyncs :
  let env := world (sec 43200) day_2024_01_15 [] no_files in
  pre_comp_copy cfg_copy_lavfi = true
  /\ gen_dummy cfg_copy_lavfi (sec 60) = [Lit "-i"; Lit "lavfi"]
  /\ check_last_item cfg_copy_lavfi env (Some (gen_dummy cfg_copy_lavfi (sec 60)))
                     (Some (sec 43000)) false
     = Ok (true, Some (sec 43205 + 500000)) [].
Proof. repeat split. Qed.

(* ------------------------------------------------------------------ *)
(** * Further properties of the code *)

(** ** The clock and the frame of the day *)






(** ** [gen_input] falling off its end *)






Lemma node_eqb_refl node : node_eqb node node = true.
Proof.
  unfold node_eqb. rewrite String.eqb_refl.
  destruct (node_in node), (node_out node), (duration node); cbn;
    rewrite ?Z.eqb_refl; reflexivity.
Qed.

(** ** The loop over the clips *)









(** ** The flag [last] of the scheduler *)






(** ** Loading the playlist *)





(** ** Passes without a playlist *)




(** ** The test for the last clip *)



(** ** Playlists without the keys the scheduler reads *)




(** ** Telling a dummy from a clip *)

Lemma has_lavfi_app (a b : cmd) :
  has_lavfi (a ++ b) = has_lavfi a || has_lavfi b.
Proof. unfold has_lavfi. apply existsb_app. Qed.





(** ** The validator *)



